(** * infra/recipe_modules/crosvm/examples/container_build_context.py

    The recipe is two statements long:

      def RunSteps(api):
          with api.crosvm.container_build_context():
              api.crosvm.step_in_container("Build", ["cargo", "build"])

      def GenTests(api):
          yield api.test("basic")

    Everything it does is a call into a collaborator (the crosvm recipe
    module, the context manager that module hands back, the recipe test
    API).  The embedding therefore keeps the recipe as a tree of
    collaborator calls, gives Python's [with] statement its documented
    meaning on such trees, and runs a tree against an arbitrary stateful
    environment while logging every call together with its reply. *)

From Stdlib Require Import String List.
From ExtLib Require Import Structures.Monad Structures.MonadExc.
Import ListNotations.
Import MonadNotation.
Local Open Scope string_scope.
Local Open Scope list_scope.
Local Open Scope monad_scope.

Set Implicit Arguments.

(** ** The Python side *)

(** What the embedding needs to know about the Python run time: objects,
    raised exceptions, and the truth value of an object ([bool(x)]), which
    the [with] statement applies to whatever [__exit__] returns.  The truth
    value is taken as a total function: an object whose [__bool__] itself
    raises is outside the model. *)
Class PyRuntime : Type := {
  object : Type;
  BaseException : Type;
  truth : object -> bool
}.

Section Python.
Context {py_runtime : PyRuntime}.

(** A call either returns or raises. *)
Inductive outcome (A : Type) : Type :=
| Return (a : A)
| Raise (e : BaseException).
Arguments Raise {A} e.

(** The calls that leave the recipe. *)
Inductive call : Type :=
| ContainerBuildContext
    (* api.crosvm.container_build_context() *)
| Enter (manager : object)
    (* type(manager).__enter__(manager) *)
| StepInContainer (step_name : string) (command : list string)
    (* api.crosvm.step_in_container(step_name, command) *)
| Exit (manager : object) (exc : option BaseException)
    (* type(manager).__exit__(manager, *exc_info) *).

(** A Python computation: it is finished, or it performs a call and goes
    on with the call's outcome. *)
Inductive py (A : Type) : Type :=
| Done (o : outcome A)
| Invoke (c : call) (k : outcome object -> py A).

Definition perform (c : call) : py object := Invoke c (@Done object).

(** [try: p / except BaseException as e: on_raise e / else: on_return a] *)
Fixpoint attempt {A B : Type} (p : py A)
    (on_return : A -> py B) (on_raise : BaseException -> py B) : py B :=
  match p with
  | Done (Return a) => on_return a
  | Done (Raise e) => on_raise e
  | Invoke c k => Invoke c (fun o => attempt (k o) on_return on_raise)
  end.

#[global] Instance Monad_py : Monad py := {
  ret := fun _ a => Done (Return a);
  bind := fun _ _ p f => attempt p f (fun e => Done (Raise e))
}.

#[global] Instance MonadExc_py : MonadExc BaseException py := {
  raise := fun _ e => Done (Raise e);
  catch := fun _ p h => attempt p (fun a => Done (Return a)) h
}.

(** [with expression: suite], without an [as] target, as the language
    reference expands it:

      manager = (expression)
      enter = type(manager).__enter__
      exit = type(manager).__exit__
      value = enter(manager)
      hit_except = False
      try:
          suite
      except:
          hit_except = True
          if not exit(manager, *sys.exc_info()):
              raise
      finally:
          if not hit_except:
              exit(manager, None, None, None)

    The two method lookups are folded into the [Enter] call. *)
Definition with_ (expression : py object) (suite : py unit) : py unit :=
  manager <- expression ;;
  _ <- perform (Enter manager) ;;
  attempt suite
    (fun _ => _ <- perform (Exit manager None) ;; ret tt)
    (fun e => suppress <- perform (Exit manager (Some e)) ;;
              if truth suppress then ret tt else raise e).

(** ** Collaborators *)

(** One entry of the call log. *)
Record event : Type := Event {
  ev_call : call;
  ev_reply : outcome object
}.

(** The collaborators taken together: a machine with a state of its own
    that answers each call. *)
Definition collaborators (S : Type) : Type :=
  S -> call -> outcome object * S.

Record run_result (A S : Type) : Type := RunResult {
  trace : list event;
  result : outcome A;
  final : S
}.

Fixpoint run {A S : Type} (env : collaborators S) (p : py A) (s : S)
    : run_result A S :=
  match p with
  | Done o => RunResult [] o s
  | Invoke c k =>
      let (o, s') := env s c in
      let r := run env (k o) s' in
      RunResult (Event c o :: trace r) (result r) (final r)
  end.

Definition calls {A S : Type} (r : run_result A S) : list call :=
  map ev_call (trace r).

Definition replies {A S : Type} (r : run_result A S)
    : list (outcome object) :=
  map ev_reply (trace r).

Definition raised {A : Type} (o : outcome A) : option BaseException :=
  match o with
  | Return _ => None
  | Raise e => Some e
  end.

(** ** The recipe *)

Definition PYTHON_VERSION_COMPATIBILITY : string := "PY3".

Definition DEPS : list string := ["crosvm"].

(** [api.crosvm], as far as the recipe uses it. *)
Record CrosvmApi : Type := {
  container_build_context : py object;
  step_in_container : string -> list string -> py object
}.

Record RecipeApi : Type := {
  crosvm : CrosvmApi
}.

(** The api object the engine passes in: each method is one call on the
    collaborator. *)
Definition recipe_api : RecipeApi := {|
  crosvm := {|
    container_build_context := perform ContainerBuildContext;
    step_in_container := fun step_name command =>
      perform (StepInContainer step_name command)
  |}
|}.

Definition RunSteps (api : RecipeApi) : py unit :=
  with_ api.(crosvm).(container_build_context)
    (_ <- api.(crosvm).(step_in_container) "Build" ["cargo"; "build"] ;;
     ret tt).

(** [api] of [GenTests]: the recipe test API, of which only [test] is
    used.  A generator that runs to its end is the list of what it
    yielded. *)
Record RecipeTestApi (T : Type) : Type := {
  test : string -> T
}.

Definition GenTests {T : Type} (api : RecipeTestApi T) : list T :=
  [api.(test) "basic"].

End Python.

Arguments Raise {py_runtime A} e.

(** ** The spec's vocabulary *)

Section Vocabulary.
Context {py_runtime : PyRuntime}.

(** The three collaborator operations the spec speaks of (its section 6
    and 8).  Acquiring the context is the call that builds the manager
    followed by entering it; the spec counts the two as one operation. *)
Inductive operation : Type :=
| acquire_build_context
| execute (label : string) (command : list string)
| release.

Definition operation_of (c : call) : list operation :=
  match c with
  | ContainerBuildContext => [acquire_build_context]
  | Enter _ => []
  | StepInContainer step_name command => [execute step_name command]
  | Exit _ _ => [release]
  end.

Definition operations {A S : Type} (r : run_result A S) : list operation :=
  flat_map operation_of (calls r).

(** Acquisition on its own: what [with] does before the suite starts. *)
Definition acquire (api : RecipeApi) : py object :=
  manager <- api.(crosvm).(container_build_context) ;;
  _ <- perform (Enter manager) ;;
  ret manager.

Definition is_step (c : call) : bool :=
  match c with
  | StepInContainer _ _ => true
  | _ => false
  end.

Definition is_release (c : call) : bool :=
  match c with
  | Exit _ _ => true
  | _ => false
  end.

Definition is_raise {A : Type} (o : outcome A) : bool :=
  match o with
  | Return _ => false
  | Raise _ => true
  end.

(** An acquisition or a step that raised. *)
Definition failure (ev : event) : bool :=
  is_raise (ev_reply ev) && negb (is_release (ev_call ev)).

(** Modelled from the spec: the context manager itself is not under
    src/ (api.crosvm hands it back).  The spec describes its exit as a
    plain release: "On any exit from the scope (normal or error), the
    handle is released, tearing down the container", and "the container
    context is still torn down cleanly before propagating".  So a release
    returns, and what it returns is not a request to suppress the
    exception in flight. *)
Definition clean_release (ev : event) : bool :=
  match ev_call ev, ev_reply ev with
  | Exit _ _, Return suppress => negb (truth suppress)
  | Exit _ _, Raise _ => false
  | _, _ => true
  end.

Definition released_cleanly {A S : Type} (r : run_result A S) : bool :=
  forallb clean_release (trace r).

(** The terminal states of the spec's section 4.1, read off the way the
    runner hands control back to the harness. *)
Inductive terminal_state : Type :=
| Completed
| Failed.

Definition terminal {A S : Type} (r : run_result A S) : terminal_state :=
  match result r with
  | Return _ => Completed
  | Raise _ => Failed
  end.

(** What the log holds after the first call that raised. *)
Fixpoint after_first_failure (t : list event) : list event :=
  match t with
  | [] => []
  | ev :: rest =>
      if is_raise (ev_reply ev) then rest else after_first_failure rest
  end.

(** The same collaborators, except that a value returned by a step is
    replaced by [f] of it. *)
Definition with_step_result {S : Type} (f : object -> object)
    (env : collaborators S) : collaborators S :=
  fun s c =>
    match c, env s c with
    | StepInContainer _ _, (Return v, s') => (Return (f v), s')
    | _, answer => answer
    end.

(** The same collaborators, except that a value returned by [__enter__] is
    replaced by [f] of it. *)
Definition with_enter_result {S : Type} (f : object -> object)
    (env : collaborators S) : collaborators S :=
  fun s c =>
    match c, env s c with
    | Enter _, (Return v, s') => (Return (f v), s')
    | _, answer => answer
    end.

(** Collaborators that answer each kind of call the same way every time
    and count the calls they got. *)
Definition scripted (built entered stepped exited : outcome object)
    : collaborators nat :=
  fun n c =>
    (match c with
     | ContainerBuildContext => built
     | Enter _ => entered
     | StepInContainer _ _ => stepped
     | Exit _ _ => exited
     end, S n).

(** Modelled from the spec: the harness's test registration (section 6)
    is not under src/.  A scenario is a name together with the inputs and
    the step overrides that vary it; [api.test(name)] starts one that has
    neither. *)
Record TestData : Type := {
  td_name : string;
  td_properties : list (string * object);
  td_step_data : list (string * outcome object)
}.

Definition harness_test_api : RecipeTestApi TestData := {|
  test := fun name =>
    {| td_name := name; td_properties := []; td_step_data := [] |}
|}.

End Vocabulary.

(** ** The module around the two functions *)

Section ModuleState.
Context {py_runtime : PyRuntime}.

(** What a name of the module's global namespace is bound to. *)
Inductive global : Type :=
| GStr (s : string)
| GList (l : list string)
| GObject (o : object).

(** The global namespace of the module, latest binding first.  It is the
    one store on the recipe's side that outlives a call of its functions:
    the parameter and the literals of a body are made anew at every call. *)
Definition namespace : Type := list (string * global).

Fixpoint lookup_global (name : string) (g : namespace) : option global :=
  match g with
  | [] => None
  | (n, v) :: rest =>
      if String.eqb name n then Some v else lookup_global name rest
  end.

(** The namespace once the module body has run (the two [def]s bind the
    functions themselves). *)
Definition module_globals : namespace :=
  [("DEPS", GList DEPS);
   ("PYTHON_VERSION_COMPATIBILITY", GStr PYTHON_VERSION_COMPATIBILITY)].

(** A call of one of the module's functions: the body runs against the
    global namespace, which it can read (a global name) and rebind (a
    [global] statement), and it performs collaborator calls.  Whether the
    body returns or raises, the namespace it leaves is the one the next
    call finds. *)
Definition frame (A : Type) : Type :=
  namespace -> py (outcome A * namespace).

Definition frame_ret {A : Type} (a : A) : frame A :=
  fun g => ret (Return a, g).

Definition frame_bind {A B : Type} (m : frame A) (f : A -> frame B)
    : frame B :=
  fun g =>
    answer <- m g ;;
    match answer with
    | (Return a, g') => f a g'
    | (Raise e, g') => ret (Raise e, g')
    end.

(** Reading a global name. *)
Definition load_global (name : string) : frame (option global) :=
  fun g => ret (Return (lookup_global name g), g).

(** Rebinding a global name. *)
Definition store_global (name : string) (v : global) : frame unit :=
  fun g => ret (Return tt, (name, v) :: g).

(** Statements that only call collaborators: the namespace is neither
    read nor rebound, whatever the calls answer. *)
Definition calling {A : Type} (p : py A) : frame A :=
  fun g =>
    attempt p (fun a => ret (Return a, g)) (fun e => ret (Raise e, g)).

(** [RunSteps(api)] as a call in the module.  Its body names the parameter
    [api] and literals only, assigns nothing and has no [global] statement,
    so all of it is calls. *)
Definition RunSteps_call (api : RecipeApi) : frame unit :=
  calling (RunSteps api).

(** What a call left in the namespace, and how it ended. *)
Definition globals_after {A S : Type}
    (r : run_result (outcome A * namespace) S) : option namespace :=
  match result r with
  | Return (_, g) => Some g
  | Raise _ => None
  end.


(** For contrast, a runner that is not the source's: it builds only when
    the module does not remember a build, and remembers the one it made. *)
Definition build_once (api : RecipeApi) : frame unit :=
  frame_bind (load_global "built")
    (fun seen =>
       match seen with
       | Some _ => frame_ret tt
       | None =>
           frame_bind (calling (RunSteps api))
             (fun _ => store_global "built" (GStr "yes"))
       end).

End ModuleState.

(** ** A concrete run time, for running the recipe on examples *)

Inductive sample_object : Type :=
| PyNone
| PyBool (b : bool)
| PyInt (n : nat)
| PyObject (id : nat).

(** The two error kinds of the spec's section 7, and the third one its
    section 4.1 mentions. *)
Inductive sample_exception : Type :=
| ContextAcquisitionError
| StepExecutionError
| ContextError.

Definition sample_truth (o : sample_object) : bool :=
  match o with
  | PyNone => false
  | PyBool b => b
  | PyInt n => negb (Nat.eqb n 0)
  | PyObject _ => true
  end.

Definition sample_runtime : PyRuntime := {|
  object := sample_object;
  BaseException := sample_exception;
  truth := sample_truth
|}.

(** The collaborators of a run in which everything goes well. *)
Definition all_pass : @collaborators sample_runtime nat :=
  @scripted sample_runtime
    (Return (PyObject 1)) (Return PyNone) (Return (PyInt 0)) (Return PyNone).

(** The build fails inside the container. *)
Definition build_fails : @collaborators sample_runtime nat :=
  @scripted sample_runtime
    (Return (PyObject 1)) (Return PyNone)
    (@Raise sample_runtime _ StepExecutionError) (Return PyNone).

(** No container can be provisioned. *)
Definition no_container : @collaborators sample_runtime nat :=
  @scripted sample_runtime
    (@Raise sample_runtime _ ContextAcquisitionError) (Return PyNone)
    (Return (PyInt 0)) (Return PyNone).

(** The manager is built but cannot be entered. *)
Definition no_entry : @collaborators sample_runtime nat :=
  @scripted sample_runtime
    (Return (PyObject 1)) (@Raise sample_runtime _ ContextAcquisitionError)
    (Return (PyInt 0)) (Return PyNone).

(** The build fails and the manager's exit asks for the exception to be
    suppressed: a manager the spec does not describe, kept to show what the
    [with] statement would make of it. *)
Definition swallows : @collaborators sample_runtime nat :=
  @scripted sample_runtime
    (Return (PyObject 1)) (Return PyNone)
    (@Raise sample_runtime _ StepExecutionError) (Return (PyBool true)).

(** The step hands back, without raising, a value that reads as a failed
    process. *)
Definition returns_exit_code_one : @collaborators sample_runtime nat :=
  @scripted sample_runtime
    (Return (PyObject 1)) (Return PyNone) (Return (PyInt 1)) (Return PyNone).

(** ** Running the recipe against arbitrary collaborators *)

(** One collaborator reply: split on the pending call's answer. *)
Ltac answer :=
  match goal with
  | |- context [ ?env ?s ?c ] =>
      match type of (env s c) with
      | (outcome _ * _)%type =>
          let E := fresh "Reply" in
          destruct (env s c) as [[?|?] ?] eqn:E; simpl in *
      end
  end.

(** When the release returned: split on the truth value of what it
    returned. *)
Ltac suppression :=
  match goal with
  | |- context [ if truth ?v then _ else _ ] =>
      let T := fresh "Truth" in
      destruct (truth v) eqn:T; simpl in *
  end.

Ltac unfold_recipe :=
  unfold RunSteps, acquire, with_, recipe_api, perform in *; simpl in *.

Ltac unroll := unfold_recipe; repeat first [answer | suppression].

(** Leaves a goal about a concrete, short call log to computation. *)
Ltac settle :=
  simpl in *; try discriminate; try congruence;
  repeat match goal with
         | H : Return _ = Return _ |- _ => inversion H; clear H; subst
         | H : Raise _ = Raise _ |- _ => inversion H; clear H; subst
         end.


(** C1. In a run whose context acquisition succeeds, as in scenario "basic",
    the collaborators are called in this order and no other: the context is
    acquired once (the manager is built, then entered, and both have
    returned before anything else happens), the step runs once with label
    "Build" and command ["cargo"; "build"], and the context is released
    once; this holds whatever the step's outcome is. *)
Theorem RunSteps_call_sequence (rt : PyRuntime) (S : Type)
    (env : collaborators S) (s : S) (manager : object) :
  result (run env (acquire recipe_api) s) = Return manager ->
  let r := run env (RunSteps recipe_api) s in
  let build := StepInContainer "Build" ["cargo"; "build"] in
  (exists entered step_reply exited,
     trace r =
       [Event ContainerBuildContext (Return manager);
        Event (Enter manager) (Return entered);
        Event build step_reply;
        Event (Exit manager (raised step_reply)) exited]) /\
  operations r =
    [acquire_build_context; execute "Build" ["cargo"; "build"]; release].
Proof.
  intros Hacq r build. subst r build. unroll; settle; (split; [do 3 eexists; repeat f_equal | reflexivity]).
Qed.

(** C2. In a run whose context acquisition succeeded the context is released
    exactly once and the release is the last call of the run, directly after
    the step, on both of the step's exit paths; when the step raises, the
    release is still called, with the exception in flight, before the run
    ends. *)
Theorem RunSteps_releases_context (rt : PyRuntime) (S : Type)
    (env : collaborators S) (s : S) (manager : object) :
  result (run env (acquire recipe_api) s) = Return manager ->
  let r := run env (RunSteps recipe_api) s in
  let build := StepInContainer "Build" ["cargo"; "build"] in
  length (filter is_release (calls r)) = 1 /\
  (exists before step_reply exited,
     trace r =
       before ++ [Event build step_reply;
                  Event (Exit manager (raised step_reply)) exited] /\
     filter is_release (map ev_call before) = []) /\
  (forall e, In (Event build (Raise e)) (trace r) ->
     exists before exited,
       trace r =
         before ++ [Event build (Raise e);
                    Event (Exit manager (Some e)) exited]).
Proof.
  intros Hacq r build. subst r build.
  unroll; settle; (split; [reflexivity | split]);
    match goal with
    | |- exists _, _ =>
        eexists [_; _], _, _; split; [simpl; repeat f_equal | reflexivity]
    | |- forall _, _ =>
        intros e' Hin; simpl in Hin;
        repeat (destruct Hin as [Hin | Hin];
                [ try discriminate;
                  try (inversion Hin; subst; eexists [_; _], _; reflexivity)
                | ]);
        contradiction
    end.
Qed.

(** C3. When context acquisition fails (the manager cannot be built, or it
    cannot be entered), the runner stops there: it makes no call beyond the
    failed acquisition, so no step is attempted, and it raises the
    acquisition's exception. *)
Theorem RunSteps_acquisition_failure (rt : PyRuntime) (S : Type)
    (env : collaborators S) (s : S) (e : BaseException) :
  result (run env (acquire recipe_api) s) = Raise e ->
  let r := run env (RunSteps recipe_api) s in
  result r = Raise e /\
  filter is_step (calls r) = [] /\
  operations r = [acquire_build_context] /\
  trace r = trace (run env (acquire recipe_api) s) /\
  final r = final (run env (acquire recipe_api) s).
Proof.
  intros Hacq r. subst r. unroll; settle; repeat split; reflexivity.
Qed.


(** C5. With a context manager that releases as the spec describes, an
    exception raised by a collaborator is the exception the runner raises
    to the harness, unchanged; the failed call is not made again (after it
    only the release is called, and no operation is called twice), and the
    exception is not swallowed. *)
Theorem RunSteps_propagates_errors (rt : PyRuntime) (S : Type)
    (env : collaborators S) (s : S) (c : call) (e : BaseException) :
  let r := run env (RunSteps recipe_api) s in
  released_cleanly r = true ->
  In (Event c (Raise e)) (trace r) ->
  result r = Raise e /\
  is_release c = false /\
  (exists before after,
     trace r = before ++ Event c (Raise e) :: after /\
     forallb is_release (map ev_call after) = true /\
     forallb (fun o => negb (is_raise o)) (map ev_reply before) = true) /\
  NoDup (operations r).
Proof.
  intros r. subst r. unfold released_cleanly, clean_release.
  intros Hclean Hin.
  unroll; settle;
    repeat (destruct Hin as [Hin | Hin]; [try discriminate | ]);
    try contradiction;
    inversion Hin; subst;
    (split; [reflexivity | split; [reflexivity | split]]);
    solve
      [ eexists [], _; repeat split; reflexivity
      | eexists [_], _; repeat split; reflexivity
      | eexists [_; _], _; repeat split; reflexivity
      | repeat constructor; simpl; intuition discriminate ].
Qed.
(** C6. With a context manager that releases as the spec describes, a run
    ends in one of two states and the log decides which: Failed when the
    acquisition or the step raised, Completed otherwise, and then the
    context was acquired, the step ran and returned, and the context was
    released.  After the first call that raises, no step is executed. *)
Theorem RunSteps_terminal_state (rt : PyRuntime) (S : Type)
    (env : collaborators S) (s : S) :
  let r := run env (RunSteps recipe_api) s in
  let build := StepInContainer "Build" ["cargo"; "build"] in
  released_cleanly r = true ->
  terminal r = (if existsb failure (trace r) then Failed else Completed) /\
  (terminal r = Completed ->
   exists manager entered built exited,
     trace r =
       [Event ContainerBuildContext (Return manager);
        Event (Enter manager) (Return entered);
        Event build (Return built);
        Event (Exit manager None) (Return exited)]) /\
  filter is_step (map ev_call (after_first_failure (trace r))) = [].
Proof.
  intros r build. subst r build.
  unfold released_cleanly, clean_release, terminal, failure.
  intros Hclean.
  unroll; settle;
    (split; [reflexivity | split; [ | reflexivity]]);
    intros Hdone; try discriminate;
    do 4 eexists; reflexivity.
Qed.

(** C7. The test generator yields exactly one test case: what the test API's
    [test] returns for the name "basic", with nothing added to it.  With the
    harness's registration as the spec describes it, that is one scenario,
    named "basic", with no inputs and no step overrides. *)
Theorem GenTests_registers_basic (rt : PyRuntime) :
  (forall (T : Type) (api : RecipeTestApi T),
     GenTests api = [test api "basic"]) /\
  length (GenTests harness_test_api) = 1 /\
  map td_name (GenTests harness_test_api) = ["basic"] /\
  map td_properties (GenTests harness_test_api) = [[]] /\
  map td_step_data (GenTests harness_test_api) = [[]].
Proof.
  repeat split; reflexivity.
Qed.

(** C8. The runner does not look at what the step returns: replace the
    value a returning step hands back by any other one and the runner makes
    the same calls, gets the same replies from everything but the step,
    ends with the same result and leaves the collaborators in the same
    state.  Only a step that raises makes a difference. *)
Theorem RunSteps_ignores_step_result (rt : PyRuntime) (S : Type)
    (env : collaborators S) (s : S) (f : object -> object) :
  let r := run env (RunSteps recipe_api) s in
  let r' := run (with_step_result f env) (RunSteps recipe_api) s in
  calls r' = calls r /\
  result r' = result r /\
  final r' = final r /\
  map is_raise (replies r') = map is_raise (replies r) /\
  filter (fun ev => negb (is_step (ev_call ev))) (trace r') =
  filter (fun ev => negb (is_step (ev_call ev))) (trace r).
Proof.
  intros r r'. subst r r'. unfold with_step_result.
  unroll; repeat split; reflexivity.
Qed.

(** C9. The runner calls nothing outside the context scope and nothing but
    the one step inside it.  Its log is one of three: the manager could not
    be built; it was built but could not be entered; or it was built and
    entered, the step ran, and the manager was exited.  So no call comes
    before the acquisition, none between the step and the release, and none
    after the release. *)
Theorem RunSteps_frame (rt : PyRuntime) (S : Type)
    (env : collaborators S) (s : S) :
  let r := run env (RunSteps recipe_api) s in
  let build := StepInContainer "Build" ["cargo"; "build"] in
  ((exists e,
      trace r = [Event ContainerBuildContext (Raise e)]) \/
   (exists manager e,
      trace r = [Event ContainerBuildContext (Return manager);
                 Event (Enter manager) (Raise e)]) \/
   (exists manager entered step_reply exited,
      trace r = [Event ContainerBuildContext (Return manager);
                 Event (Enter manager) (Return entered);
                 Event build step_reply;
                 Event (Exit manager (raised step_reply)) exited])) /\
  (operations r = [acquire_build_context] \/
   operations r =
     [acquire_build_context; execute "Build" ["cargo"; "build"]; release]).
Proof.
  intros r build. subst r build.
  unroll; (split; [ | (left; reflexivity) || (right; reflexivity)]);
    solve
      [ left; eexists; reflexivity
      | right; left; do 2 eexists; reflexivity
      | right; right; do 4 eexists; simpl; repeat f_equal ].
Qed.

(** ** More of what the two statements do *)

(** X2. The runner does not look at what [__enter__] returns (the [with]
    has no [as] target): replace the value it hands back by any other one
    and the runner makes the same calls, ends with the same result and
    leaves the collaborators in the same state. *)
Theorem RunSteps_ignores_enter_result (rt : PyRuntime) (S : Type)
    (env : collaborators S) (s : S) (f : object -> object) :
  let r := run env (RunSteps recipe_api) s in
  let r' := run (with_enter_result f env) (RunSteps recipe_api) s in
  calls r' = calls r /\
  result r' = result r /\
  final r' = final r /\
  map is_raise (replies r') = map is_raise (replies r).
Proof.
  intros r r'. subst r r'. unfold with_enter_result.
  unroll; repeat split; reflexivity.
Qed.

(** X5. The runner returns normally only after a full pass through the
    scope: the manager was built and entered, the step "Build" was called,
    and the release returned; if the step had raised, the release returned a
    true value. *)
Theorem RunSteps_normal_return (rt : PyRuntime) (S : Type)
    (env : collaborators S) (s : S) :
  result (run env (RunSteps recipe_api) s) = Return tt ->
  exists manager entered step_reply suppress,
    trace (run env (RunSteps recipe_api) s) =
      [Event ContainerBuildContext (Return manager);
       Event (Enter manager) (Return entered);
       Event (StepInContainer "Build" ["cargo"; "build"]) step_reply;
       Event (Exit manager (raised step_reply)) (Return suppress)] /\
    (is_raise step_reply = true -> truth suppress = true).
Proof.
  unroll; intros Hreturned; settle;
    do 4 eexists; (split; [simpl; repeat f_equal | simpl; congruence]).
Qed.

(** ** The recipe on concrete collaborators *)

Section Samples.
#[local] Existing Instance sample_runtime.

Example all_pass_run :
  run all_pass (RunSteps recipe_api) 0 =
  RunResult
    [Event ContainerBuildContext (Return (PyObject 1));
     Event (Enter (PyObject 1)) (Return PyNone);
     Event (StepInContainer "Build" ["cargo"; "build"]) (Return (PyInt 0));
     Event (Exit (PyObject 1) None) (Return PyNone)]
    (Return tt) 4.
Proof. reflexivity. Qed.

Example build_fails_run :
  run build_fails (RunSteps recipe_api) 0 =
  RunResult
    [Event ContainerBuildContext (Return (PyObject 1));
     Event (Enter (PyObject 1)) (Return PyNone);
     Event (StepInContainer "Build" ["cargo"; "build"])
       (Raise StepExecutionError);
     Event (Exit (PyObject 1) (Some StepExecutionError)) (Return PyNone)]
    (Raise StepExecutionError) 4.
Proof. reflexivity. Qed.

Example no_container_run :
  run no_container (RunSteps recipe_api) 0 =
  RunResult [Event ContainerBuildContext (Raise ContextAcquisitionError)]
    (Raise ContextAcquisitionError) 1.
Proof. reflexivity. Qed.

Example no_entry_run :
  run no_entry (RunSteps recipe_api) 0 =
  RunResult
    [Event ContainerBuildContext (Return (PyObject 1));
     Event (Enter (PyObject 1)) (Raise ContextAcquisitionError)]
    (Raise ContextAcquisitionError) 2.
Proof. reflexivity. Qed.

(** A step that returns is a step that passed, whatever it returned. *)
Example returns_exit_code_one_run :
  result (run returns_exit_code_one (RunSteps recipe_api) 0) = Return tt /\
  calls (run returns_exit_code_one (RunSteps recipe_api) 0) =
  calls (run all_pass (RunSteps recipe_api) 0).
Proof. split; reflexivity. Qed.

(** The manager outside the spec's description: the release does not come
    back clean, and the [with] statement ends the run normally. *)
Example swallows_run :
  released_cleanly (run swallows (RunSteps recipe_api) 0) = false /\
  result (run swallows (RunSteps recipe_api) 0) = Return tt.
Proof. split; reflexivity. Qed.

(** The runner of the contrast does carry state: it rebinds a global, and
    with that global bound it makes no call at all.  [RunSteps_call] does
    neither. *)
Example build_once_carries_state :
  globals_after (run all_pass (build_once recipe_api module_globals) 0) =
    Some (("built", GStr "yes") :: module_globals) /\
  calls (run all_pass
           (build_once recipe_api (("built", GStr "yes") :: module_globals))
           0) = [] /\
  globals_after (run all_pass (RunSteps_call recipe_api module_globals) 0) =
    Some module_globals /\
  calls (run all_pass
           (RunSteps_call recipe_api (("built", GStr "yes") :: module_globals))
           0) =
  calls (run all_pass (RunSteps recipe_api) 0).
Proof. repeat split; reflexivity. Qed.

Example GenTests_run :
  GenTests harness_test_api =
  [{| td_name := "basic"; td_properties := []; td_step_data := [] |}].
Proof. reflexivity. Qed.

(** The build fails after a successful acquisition: the three operations
    are still called, in order. *)
Lemma RunSteps_call_sequence_witness :
  result (run build_fails (acquire recipe_api) 0) = Return (PyObject 1) /\
  operations (run build_fails (RunSteps recipe_api) 0) =
    [acquire_build_context; execute "Build" ["cargo"; "build"]; release].
Proof.
  split; [reflexivity | ].
  destruct (@RunSteps_call_sequence sample_runtime nat build_fails 0
              (PyObject 1) eq_refl) as [_ Hoperations].
  exact Hoperations.
Defined.

(** The build fails after a successful acquisition: one release. *)
Lemma RunSteps_releases_context_witness :
  result (run build_fails (acquire recipe_api) 0) = Return (PyObject 1) /\
  length (filter is_release (calls (run build_fails (RunSteps recipe_api) 0)))
    = 1.
Proof.
  split; [reflexivity | ].
  destruct (@RunSteps_releases_context sample_runtime nat build_fails 0
              (PyObject 1) eq_refl) as [Honce _].
  exact Honce.
Defined.

(** No container: the acquisition's exception comes out and no step ran. *)
Lemma RunSteps_acquisition_failure_witness :
  result (run no_container (acquire recipe_api) 0) =
    Raise ContextAcquisitionError /\
  result (run no_container (RunSteps recipe_api) 0) =
    Raise ContextAcquisitionError /\
  filter is_step (calls (run no_container (RunSteps recipe_api) 0)) = [].
Proof.
  split; [reflexivity | ].
  destruct (@RunSteps_acquisition_failure sample_runtime nat no_container 0
              ContextAcquisitionError eq_refl) as [Hresult [Hsteps _]].
  split; [exact Hresult | exact Hsteps].
Defined.


(** The build's exception is what the runner raises. *)
Lemma RunSteps_propagates_errors_witness :
  released_cleanly (run build_fails (RunSteps recipe_api) 0) = true /\
  result (run build_fails (RunSteps recipe_api) 0) = Raise StepExecutionError.
Proof.
  split; [reflexivity | ].
  destruct (@RunSteps_propagates_errors sample_runtime nat build_fails 0
              (StepInContainer "Build" ["cargo"; "build"]) StepExecutionError
              eq_refl)
    as [Hresult _].
  - simpl. right. right. left. reflexivity.
  - exact Hresult.
Defined.

(** A failed build ends in Failed; the log has a failure in it. *)
Lemma RunSteps_terminal_state_witness :
  released_cleanly (run build_fails (RunSteps recipe_api) 0) = true /\
  terminal (run build_fails (RunSteps recipe_api) 0) = Failed.
Proof.
  split; [reflexivity | ].
  destruct (@RunSteps_terminal_state sample_runtime nat build_fails 0 eq_refl)
    as [Hterminal _].
  exact Hterminal.
Defined.

(** A run in which everything goes well went through the whole scope. *)
Lemma RunSteps_normal_return_witness :
  result (run all_pass (RunSteps recipe_api) 0) = Return tt /\
  exists manager entered step_reply suppress,
    trace (run all_pass (RunSteps recipe_api) 0) =
      [Event ContainerBuildContext (Return manager);
       Event (Enter manager) (Return entered);
       Event (StepInContainer "Build" ["cargo"; "build"]) step_reply;
       Event (Exit manager (raised step_reply)) (Return suppress)] /\
    (is_raise step_reply = true -> truth suppress = true).
Proof.
  split; [reflexivity | ].
  exact (@RunSteps_normal_return sample_runtime nat all_pass 0 eq_refl).
Defined.

End Samples.
